(** * wtgseal.maker: generation of locust files

    A shallow embedding of [src/wtgseal/maker.py] and the properties of its
    block builders and of its emitter.

    The module builds lists of (indentation level, text) pairs and writes
    them to a file.  Arguments that the Python code inspects at run time
    ([type(n) != int], [isinstance(uri, list)], [isinstance(path, Path)],
    tuple unpacking, [str * int], [str + str]) are values of [pyval];
    arguments that are only formatted or added are taken at their annotated
    type.  Raised exceptions are the [Raise] branch of [result]. *)

From Stdlib Require Import ZArith Ascii String.
From stdpp Require Import gmap strings list pretty.

Set Warnings "-register-all".
Local Open Scope Z_scope.

(** ** Python values and exceptions *)

(** The fragment of Python values the module's run-time checks tell apart.
    A character of a [string] is a code point below 256; [PyPath p] is a
    [pathlib.PosixPath] whose string form is [p]. *)
Inductive pyval : Type :=
  | PyNone
  | PyBool (b : bool)
  | PyInt (z : Z)
  | PyStr (s : string)
  | PyTuple (items : list pyval)
  | PyList (items : list pyval)
  | PyPath (p : string).

(** Exception classes: [TypeError] is the one the module raises itself,
    [ValueError] comes from unpacking, [OSError] from opening a file. *)
Inductive exn : Type :=
  | TypeError
  | ValueError
  | OSError.

Inductive result (A : Type) : Type :=
  | Ok (a : A)
  | Raise (e : exn).

Arguments Ok {A} a.
Arguments Raise {A} e.

Definition bind {A B : Type} (r : result A) (k : A -> result B) : result B :=
  match r with
  | Ok a => k a
  | Raise e => Raise e
  end.

Notation "x <- r ;; k" := (bind r (fun x => k))
  (at level 100, r at next level, right associativity).

Definition raises {A : Type} (r : result A) : Prop :=
  exists e, r = Raise e.

Definition returns {A : Type} (r : result A) : Prop :=
  exists a, r = Ok a.

(** [isinstance(v, list)] *)
Definition is_list (v : pyval) : bool :=
  match v with PyList _ => true | _ => false end.

(** [isinstance(v, Path)] *)
Definition is_path (v : pyval) : bool :=
  match v with PyPath _ => true | _ => false end.

(** [type(v) == int]: the exact type, so a [bool] does not pass. *)
Definition type_is_int (v : pyval) : bool :=
  match v with PyInt _ => true | _ => false end.

(** [isinstance(v, int)]: [bool] is a subclass of [int]. *)
Definition isinstance_int (v : pyval) : bool :=
  match v with PyInt _ | PyBool _ => true | _ => false end.

(** [isinstance(v, collections.abc.Sequence)]: strings, tuples and lists. *)
Definition is_sequence (v : pyval) : bool :=
  match v with PyStr _ | PyTuple _ | PyList _ => true | _ => false end.

(** ** Strings *)

Definition nl : string := String "010"%char EmptyString.
Definition dquote : string := String "034"%char EmptyString.
Definition squote : string := String "039"%char EmptyString.
Definition backslash : string := String "092"%char EmptyString.

(** [s * n] for a string [s] and an integer [n]: empty when [n <= 0]. *)
Fixpoint str_repeat (s : string) (n : nat) : string :=
  match n with
  | O => EmptyString
  | S k => s +:+ str_repeat s k
  end.

Definition str_mul (s : string) (n : Z) : string :=
  str_repeat s (Z.to_nat n).

(** [needle in hay] *)
Definition contains (needle hay : string) : Prop :=
  exists pre post, hay = pre +:+ needle +:+ post.

(** [str(z)] for an integer. *)
Definition int_str (z : Z) : string := pretty z.

Definition hex_digit (n : N) : ascii :=
  if (n <? 10)%N then ascii_of_N (48 + n) else ascii_of_N (87 + n).

(** The escape [\xhh] of a character. *)
Definition hex_escape (c : ascii) : string :=
  let n := N_of_ascii c in
  backslash +:+ "x" +:+
  String (hex_digit (n / 16)) (String (hex_digit (n mod 16)) EmptyString).

Fixpoint has_char (c : ascii) (s : string) : bool :=
  match s with
  | EmptyString => false
  | String a rest => if Ascii.eqb a c then true else has_char c rest
  end.

(** [s.count(c)] for a character [c]. *)
Fixpoint count_char (c : ascii) (s : string) : nat :=
  match s with
  | EmptyString => O
  | String a rest =>
      if Ascii.eqb a c then S (count_char c rest) else count_char c rest
  end.

(** The quote [repr] puts around a string: a double quote when the string
    has a single quote and no double quote, a single quote otherwise. *)
Definition repr_quote (s : string) : ascii :=
  if has_char "039" s && negb (has_char "034" s) then "034"%char
  else "039"%char.

(** [str.isprintable] on one code point below 256. *)
Definition printable (c : ascii) : bool :=
  let n := N_of_ascii c in
  ((32 <=? n) && (n <? 127) || (161 <=? n) && negb (n =? 173))%N.

Definition repr_char (q c : ascii) : string :=
  if Ascii.eqb c q || Ascii.eqb c "092" then backslash +:+ String c EmptyString
  else if Ascii.eqb c "009" then backslash +:+ "t"
  else if Ascii.eqb c "010" then backslash +:+ "n"
  else if Ascii.eqb c "013" then backslash +:+ "r"
  else if printable c then String c EmptyString
  else hex_escape c.

Fixpoint repr_chars (q : ascii) (s : string) : string :=
  match s with
  | EmptyString => EmptyString
  | String c rest => repr_char q c +:+ repr_chars q rest
  end.

(** [repr(s)] for a string. *)
Definition str_repr (s : string) : string :=
  let q := String (repr_quote s) EmptyString in
  q +:+ repr_chars (repr_quote s) s +:+ q.

(** [', '.join(parts)] *)
Definition comma_join (parts : list string) : string :=
  String.concat ", " parts.

(** [repr(v)] *)
Fixpoint py_repr (v : pyval) : string :=
  match v with
  | PyNone => "None"
  | PyBool true => "True"
  | PyBool false => "False"
  | PyInt z => int_str z
  | PyStr s => str_repr s
  | PyTuple [x] => "(" +:+ py_repr x +:+ ",)"
  | PyTuple items => "(" +:+ comma_join (map py_repr items) +:+ ")"
  | PyList items => "[" +:+ comma_join (map py_repr items) +:+ "]"
  | PyPath p => "PosixPath(" +:+ str_repr p +:+ ")"
  end.

(** [str(v)], which is also what an f-string field [{v}] inserts. *)
Definition py_str (v : pyval) : string :=
  match v with
  | PyStr s => s
  | PyPath p => p
  | _ => py_repr v
  end.

(** ** Command and block definitions *)

(** [CmdDef = Tuple[int, str]] and [BlockDef = List[CmdDef]] *)
Definition CmdDef : Type := Z * string.
Definition BlockDef : Type := list CmdDef.

Definition py_of_cmddef (c : CmdDef) : pyval :=
  PyTuple [PyInt (fst c); PyStr (snd c)].

Definition py_of_block (b : BlockDef) : pyval :=
  PyList (map py_of_cmddef b).

(** [a, b = v]: a tuple, a list or a string of exactly two items. *)
Definition unpack2 (v : pyval) : result (pyval * pyval) :=
  match v with
  | PyTuple [a; b] | PyList [a; b] => Ok (a, b)
  | PyStr (String a (String b EmptyString)) =>
      Ok (PyStr (String a EmptyString), PyStr (String b EmptyString))
  | PyTuple _ | PyList _ | PyStr _ => Raise ValueError
  | PyNone | PyBool _ | PyInt _ | PyPath _ => Raise TypeError
  end.

(** The count of [s * v]: an integer, or a boolean as 0 or 1. *)
Definition as_index (v : pyval) : result Z :=
  match v with
  | PyInt z => Ok z
  | PyBool b => Ok (if b then 1 else 0)
  | _ => Raise TypeError
  end.

(** The right operand of [s + v], which has to be a string. *)
Definition as_str (v : pyval) : result string :=
  match v with
  | PyStr s => Ok s
  | _ => Raise TypeError
  end.

Definition default_indentby : string := str_mul " " 4.

(** [indentby * level + cmd + '\n'] *)
Definition render (level : Z) (cmd indentby : string) : string :=
  str_mul indentby level +:+ cmd +:+ nl.

Definition cmddef_to_str (cmddef : pyval) (indentby : string) : result string :=
  pair <- unpack2 cmddef ;;
  let '(level, cmd) := pair in
  n <- as_index level ;;
  text <- as_str cmd ;;
  Ok (render n text indentby).

(** [cmddef_to_str(cmddef)] with its default [indentby = ' ' * 4]. *)
Definition cmddef_to_str_default (cmddef : pyval) : result string :=
  cmddef_to_str cmddef default_indentby.

(** ** Block builders *)

(** [l * n] for a list [l] and an integer [n]: empty when [n <= 0]. *)
Definition list_mul {A : Type} (l : list A) (n : Z) : list A :=
  concat (replicate (Z.to_nat n) l).

Definition setup_blank_line (n : pyval) : result BlockDef :=
  match n with
  | PyInt z => Ok (list_mul [(0, EmptyString)] z)
  | _ => Raise TypeError (* type(n) != int: "n must be an integer" *)
  end.

(** [setup_blank_line()] with its default [n = 1]. *)
Definition setup_blank_line_default : result BlockDef :=
  setup_blank_line (PyInt 1).

(** The defaults of [dist], [version] and [url] are constants of the
    package's [__init__], which the function only formats: they are taken as
    arguments. *)
Definition setup_header (dist version url : string) : BlockDef :=
  let header := [] in
  let header := header ++
    [(0, "# locust file generated by " +:+ dist
           +:+ " (release " +:+ version +:+ ")")] in
  let header := header ++ [(0, "# See " +:+ url +:+ " for more information")] in
  header.

Definition setup_import : BlockDef :=
  let imports := [] in
  let imports := imports ++ [(0, "from locust import HttpLocust, TaskSet, task")] in
  let imports := imports ++ [(0, "from scipy.stats import pareto")] in
  imports.

Definition task_decorator (weight : Z) : string :=
  "@task(" +:+ int_str weight +:+ ")".

Definition task_def (name : string) : string :=
  "def " +:+ name +:+ "(self):".

Definition task_get (req : pyval) : string :=
  "self.client.get(" +:+ dquote +:+ py_str req +:+ dquote +:+ ")".

(** The loop [for req in uri: task.append(...)], from the lines built so
    far. *)
Definition append_requests (indlevel : Z) (task : BlockDef) (uri : list pyval)
    : BlockDef :=
  fold_left (fun task req => task ++ [(indlevel + 1, task_get req)]) uri task.

Definition setup_task (name : string) (weight : Z) (uri : pyval) (indlevel : Z)
    : result BlockDef :=
  match uri with
  | PyList reqs =>
      let task := [] in
      let task := task ++ [(indlevel, task_decorator weight)] in
      let task := task ++ [(indlevel, task_def name)] in
      Ok (append_requests indlevel task reqs)
  | _ => Raise TypeError (* "Parameter uri should be a list" *)
  end.

Definition setup_taskset (name : string) : BlockDef :=
  [(0, "class " +:+ name +:+ "(TaskSet):")].

Definition setup_locust (name taskset : string) (weight indlevel : Z)
    : result BlockDef :=
  let locust :=
    [(indlevel, "class " +:+ name +:+ "(HttpLocust):");
     (indlevel + 1, "weight = " +:+ int_str weight);
     (indlevel + 1, "task_set = " +:+ taskset);
     (indlevel + 1, "pareto_obj = pareto(b=1.4, scale=1)");
     (indlevel + 1, "pareto_obj.random_state = 1")] in
  blank <- setup_blank_line_default ;;
  let locust := locust ++ blank in
  let locust := locust ++
    [(indlevel + 1, "def wait_time(self):");
     (indlevel + 2, "return self.pareto_obj.rvs()")] in
  Ok locust.

(** ** The emitter *)

(** The files of the storage, as the text written to them in text mode (the
    encoding and the newline translation of the platform are left out), and
    the paths the operating system refuses to open for writing (a directory,
    a missing parent, a missing permission).  A file that was opened takes
    every write. *)
Record filesystem : Type := {
  files : gmap string string;
  refused : gset string
}.

(** The body of [with path.open(mode='w') as fd], from the text written so
    far: each command is rendered and written; a command that cannot be
    rendered ends the loop with its exception, the file keeping what was
    written before it. *)
Fixpoint write_cmds (filedef : list pyval) (indentby written : string)
    : result unit * string :=
  match filedef with
  | [] => (Ok tt, written)
  | cmddef :: rest =>
      match cmddef_to_str cmddef indentby with
      | Ok line => write_cmds rest indentby (written +:+ line)
      | Raise e => (Raise e, written)
      end
  end.

Definition write_locust (fs : filesystem) (path filedef : pyval)
    (indentby : string) : result unit * filesystem :=
  match path with
  | PyPath p =>
      match filedef with
      | PyList cmds =>
          if decide (p ∈ refused fs) then (Raise OSError, fs)
          else
            let '(r, content) := write_cmds cmds indentby EmptyString in
            (r, {| files := <[p := content]> (files fs);
                   refused := refused fs |})
      | _ => (Raise TypeError, fs) (* "Expected a list of tuples" *)
      end
  | _ => (Raise TypeError, fs) (* "Expected a pathlib.Path object" *)
  end.

(** [write_locust(path, filedef)] with its default [indentby = ' ' * 4]. *)
Definition write_locust_default (fs : filesystem) (path filedef : pyval)
    : result unit * filesystem :=
  write_locust fs path filedef default_indentby.

(** * Properties *)

(** ** Strings and lists *)

(** [''.join(parts)] *)
Definition join (parts : list string) : string :=
  foldr String.app EmptyString parts.

Lemma str_app_cons (a : ascii) (s t : string) :
  String a s +:+ t = String a (s +:+ t).
Proof. reflexivity. Qed.

Lemma str_app_nil_r (s : string) : s +:+ EmptyString = s.
Proof.
  induction s as [|a s IH]; [reflexivity|].
  rewrite str_app_cons. by rewrite IH.
Qed.

Lemma str_app_assoc (s t u : string) : (s +:+ t) +:+ u = s +:+ (t +:+ u).
Proof.
  induction s as [|a s IH]; [reflexivity|].
  rewrite !str_app_cons. by rewrite IH.
Qed.

Lemma str_repeat_join (s : string) (n : nat) :
  str_repeat s n = join (replicate n s).
Proof. induction n as [|n IH]; [reflexivity|]. simpl. by rewrite IH. Qed.

Lemma contains_mid (pre needle post : string) :
  contains needle (pre +:+ needle +:+ post).
Proof. by exists pre, post. Qed.

Lemma list_mul_singleton {A : Type} (x : A) (n : Z) :
  list_mul [x] n = replicate (Z.to_nat n) x.
Proof.
  unfold list_mul. induction (Z.to_nat n) as [|k IH]; [reflexivity|].
  simpl. by rewrite IH.
Qed.

(** ** Results *)

Lemma raises_not_returns {A : Type} (r : result A) : raises r -> ~ returns r.
Proof. intros [e ->] [a Ha]. discriminate. Qed.

Lemma bind_Ok {A B : Type} (r : result A) (k : A -> result B) (b : B) :
  bind r k = Ok b -> exists a, r = Ok a /\ k a = Ok b.
Proof. destruct r as [a|e]; simpl; [eauto|discriminate]. Qed.

(** ** Rendering a line *)

(** A command definition of the annotated type renders, whatever its
    level. *)
Lemma cmddef_to_str_typed (c : CmdDef) (indentby : string) :
  cmddef_to_str (py_of_cmddef c) indentby = Ok (render (fst c) (snd c) indentby).
Proof. by destruct c. Qed.

(** C5: for a level that is not negative, [cmddef_to_str] returns the
    indentation unit repeated [level] times, then the text, then one newline;
    [cmddef_to_str((2, "x"), "  ")] is four spaces, [x] and a newline; and the
    indentation unit left out is four spaces. *)
Theorem cmddef_to_str_indents (level : Z) (text indentby : string) :
  0 <= level ->
  cmddef_to_str (py_of_cmddef (level, text)) indentby
    = Ok (join (replicate (Z.to_nat level) indentby) +:+ text +:+ nl)
  /\ cmddef_to_str (py_of_cmddef (2, "x")) "  " = Ok ("    x" +:+ nl)
  /\ default_indentby = "    "
  /\ cmddef_to_str_default (py_of_cmddef (level, text))
       = cmddef_to_str (py_of_cmddef (level, text)) "    ".
Proof.
  intros _. repeat split.
  rewrite cmddef_to_str_typed. unfold render, str_mul. simpl.
  by rewrite str_repeat_join.
Qed.

Lemma cmddef_to_str_indents_witness :
  cmddef_to_str (py_of_cmddef (3, "pass")) "ab"
    = Ok ("abababpass" +:+ nl).
Proof. apply (cmddef_to_str_indents 3 "pass" "ab"). lia. Defined.

(** ** Blank lines *)

(** C6: for [n] that is not negative, [setup_blank_line(n)] returns a block
    of exactly [n] records, each of them [(0, '')]. *)
Theorem setup_blank_line_count (n : Z) :
  0 <= n ->
  exists block : BlockDef,
    setup_blank_line (PyInt n) = Ok block
    /\ Z.of_nat (length block) = n
    /\ Forall (fun c => c = (0, EmptyString)) block.
Proof.
  intros Hn. exists (replicate (Z.to_nat n) (0, EmptyString)).
  split; [|split].
  - simpl. by rewrite list_mul_singleton.
  - rewrite length_replicate. lia.
  - by apply Forall_replicate.
Qed.

Lemma setup_blank_line_count_witness :
  exists block : BlockDef,
    setup_blank_line (PyInt 3) = Ok block
    /\ Z.of_nat (length block) = 3
    /\ Forall (fun c => c = (0, EmptyString)) block.
Proof. apply (setup_blank_line_count 3). lia. Defined.

(** C3, as the code has it: [setup_blank_line(n)] raises [TypeError] exactly
    when the type of [n] is not [int]; [-1] is an [int], and the call returns
    the empty block for it. *)
Theorem setup_blank_line_type_check (n : pyval) :
  (setup_blank_line n = Raise TypeError <-> type_is_int n = false)
  /\ setup_blank_line (PyInt (-1)) = Ok [].
Proof.
  split; [|reflexivity].
  destruct n; simpl; split; intros H; try reflexivity; discriminate.
Qed.

(** C3, as it is stated, fails at [-1]: the call returns the empty block and
    raises nothing. *)
Lemma setup_blank_line_minus_one :
  setup_blank_line (PyInt (-1)) = Ok []
  /\ ~ raises (setup_blank_line (PyInt (-1))).
Proof. split; [reflexivity|]. intros [e He]. discriminate. Qed.

(** C10: [setup_blank_line] raises [TypeError] for [True] and for [False],
    although both are instances of [int], and does not return the block it
    returns for 1 or 0: the check is on the exact type. *)
Theorem setup_blank_line_bool (b : bool) :
  setup_blank_line (PyBool b) = Raise TypeError
  /\ isinstance_int (PyBool b) = true
  /\ type_is_int (PyBool b) = false
  /\ setup_blank_line (PyBool b)
       <> setup_blank_line (PyInt (if b then 1 else 0)).
Proof. repeat split. by destruct b. Qed.

(** ** Tasks *)

Lemma append_requests_map (indlevel : Z) (task : BlockDef) (uri : list pyval) :
  append_requests indlevel task uri
    = task ++ map (fun req => (indlevel + 1, task_get req)) uri.
Proof.
  unfold append_requests. revert task.
  induction uri as [|req uri IH]; intros task; simpl.
  - by rewrite app_nil_r.
  - rewrite IH. by rewrite <- app_assoc.
Qed.

Lemma setup_task_list (name : string) (weight : Z) (reqs : list pyval)
    (indlevel : Z) :
  setup_task name weight (PyList reqs) indlevel
    = Ok ((indlevel, task_decorator weight) :: (indlevel, task_def name)
          :: map (fun req => (indlevel + 1, task_get req)) reqs).
Proof. unfold setup_task. by rewrite append_requests_map. Qed.

(** The GET line of a URI, as the claim reads it. *)
Definition get_line (u : string) : string :=
  "self.client.get(" +:+ dquote +:+ u +:+ dquote +:+ ")".

(** C2: [setup_task(name, weight, uris, indlevel)] returns [2 + len(uris)]
    lines: a decorator line that contains the weight and a line that defines
    a method called [name], both at [indlevel], then one GET line for each
    URI, in order, that contains the URI as it is, at [indlevel + 1]; for
    [("t1", 2, ["/a", "/b"], 0)] these are four lines, the GET lines at
    level 1. *)
Theorem setup_task_lines (name : string) (weight : Z) (uris : list string)
    (indlevel : Z) :
  (exists (deco def : string) (gets : BlockDef),
    setup_task name weight (PyList (map PyStr uris)) indlevel
      = Ok ((indlevel, deco) :: (indlevel, def) :: gets)
    /\ length ((indlevel, deco) :: (indlevel, def) :: gets)
         = (2 + length uris)%nat
    /\ deco = "@task(" +:+ int_str weight +:+ ")"
    /\ contains (int_str weight) deco
    /\ def = "def " +:+ name +:+ "(self):"
    /\ contains name def
    /\ Forall2 (fun u line =>
                  fst line = indlevel + 1
                  /\ snd line = get_line u
                  /\ contains u (snd line)) uris gets)
  /\ setup_task "t1" 2 (PyList [PyStr "/a"; PyStr "/b"]) 0
       = Ok [(0, "@task(2)"); (0, "def t1(self):");
             (1, get_line "/a"); (1, get_line "/b")].
Proof.
  split; [|reflexivity].
  exists (task_decorator weight), (task_def name),
    (map (fun req => (indlevel + 1, task_get req)) (map PyStr uris)).
  split; [apply setup_task_list|].
  split; [simpl; by rewrite !length_map|].
  split; [reflexivity|].
  split; [apply contains_mid|].
  split; [reflexivity|].
  split; [apply contains_mid|].
  induction uris as [|u uris IH]; simpl; constructor; [|exact IH].
  simpl. repeat split.
  exists ("self.client.get(" +:+ dquote), (dquote +:+ ")").
  unfold task_get. simpl. by rewrite !str_app_assoc.
Qed.

(** C4, as the code has it: [setup_task] raises [TypeError] exactly when
    [uri] is not a list, and returns a block exactly when it is one; a tuple
    or a string is a sequence and is refused all the same. *)
Theorem setup_task_list_check (name : string) (weight : Z) (uri : pyval)
    (indlevel : Z) :
  (setup_task name weight uri indlevel = Raise TypeError
     <-> is_list uri = false)
  /\ (returns (setup_task name weight uri indlevel) <-> is_list uri = true)
  /\ setup_task name weight (PyTuple [PyStr "/"]) indlevel = Raise TypeError
  /\ setup_task name weight (PyStr "not-a-list") indlevel = Raise TypeError.
Proof.
  split; [|split; [|split; reflexivity]].
  - destruct uri; simpl; split; intros H; try reflexivity; discriminate.
  - split.
    + intros [block Hblock]. destruct uri; (reflexivity || discriminate).
    + intros Hlist. destruct uri; try discriminate.
      eexists. apply setup_task_list.
Qed.

(** C4, as it is stated, fails at a tuple: it is a sequence, and the call
    raises instead of returning a block. *)
Lemma setup_task_refuses_tuple :
  is_sequence (PyTuple [PyStr "/a"; PyStr "/b"]) = true
  /\ setup_task "t1" 2 (PyTuple [PyStr "/a"; PyStr "/b"]) 0 = Raise TypeError
  /\ ~ returns (setup_task "t1" 2 (PyTuple [PyStr "/a"; PyStr "/b"]) 0).
Proof.
  split; [reflexivity|]. split; [reflexivity|].
  intros [b Hb]. discriminate.
Qed.

(** ** User behaviour *)

Lemma setup_locust_block (name taskset : string) (weight indlevel : Z) :
  setup_locust name taskset weight indlevel
    = Ok [(indlevel, "class " +:+ name +:+ "(HttpLocust):");
          (indlevel + 1, "weight = " +:+ int_str weight);
          (indlevel + 1, "task_set = " +:+ taskset);
          (indlevel + 1, "pareto_obj = pareto(b=1.4, scale=1)");
          (indlevel + 1, "pareto_obj.random_state = 1");
          (0, EmptyString);
          (indlevel + 1, "def wait_time(self):");
          (indlevel + 2, "return self.pareto_obj.rvs()")].
Proof. reflexivity. Qed.

(** C8: whatever the name, the task set, the weight and the level, the block
    of [setup_locust] has a line that builds the distribution with the
    literal shape 1.4 and scale 1, a line that sets the random state to 1,
    and the definition of [wait_time] followed, one level deeper, by the
    return of a sample of that distribution object. *)
Theorem setup_locust_pareto (name taskset : string) (weight indlevel : Z) :
  exists (block : BlockDef) (construct : string),
    setup_locust name taskset weight indlevel = Ok block
    /\ block !! 3%nat = Some (indlevel + 1, construct)
    /\ construct = "pareto_obj = pareto(b=1.4, scale=1)"
    /\ contains "pareto(" construct
    /\ contains "b=1.4" construct
    /\ contains "scale=1)" construct
    /\ block !! 4%nat = Some (indlevel + 1, "pareto_obj.random_state = 1")
    /\ block !! 6%nat = Some (indlevel + 1, "def wait_time(self):")
    /\ block !! 7%nat = Some (indlevel + 2, "return self.pareto_obj.rvs()")
    /\ contains "pareto_obj.rvs()" "return self.pareto_obj.rvs()".
Proof.
  eexists _, _. split; [apply setup_locust_block|].
  split; [reflexivity|]. split; [reflexivity|].
  split; [by exists "pareto_obj = ", "b=1.4, scale=1)"|].
  split; [by exists "pareto_obj = pareto(", ", scale=1)"|].
  split; [by exists "pareto_obj = pareto(b=1.4, ", EmptyString|].
  do 3 (split; [reflexivity|]).
  by exists "return self.", EmptyString.
Qed.

(** C9: whatever the name, the task set, the weight and the level, the block
    of [setup_locust] has exactly 8 records, and the sixth is [(0, '')]: the
    blank line is at level 0, not at a level relative to [indlevel]. *)
Theorem setup_locust_blank_separator (name taskset : string)
    (weight indlevel : Z) :
  exists block : BlockDef,
    setup_locust name taskset weight indlevel = Ok block
    /\ length block = 8%nat
    /\ block !! 5%nat = Some (0, EmptyString).
Proof. eexists. split; [apply setup_locust_block|]. by split. Qed.

(** ** Writing the file *)

(** A loop that ends without exception has rendered every command, and has
    written the lines, in order, after what was there. *)
Lemma write_cmds_Ok (cmds : list pyval) (indentby written content : string) :
  write_cmds cmds indentby written = (Ok tt, content) ->
  exists lines : list string,
    Forall2 (fun cmddef line => cmddef_to_str cmddef indentby = Ok line)
      cmds lines
    /\ content = written +:+ join lines.
Proof.
  revert written. induction cmds as [|cmddef cmds IH]; intros written; simpl.
  - intros [= <-]. exists []. split; [constructor|].
    by rewrite str_app_nil_r.
  - destruct (cmddef_to_str cmddef indentby) as [line|e] eqn:Hline;
      [|discriminate].
    intros Hrest. destruct (IH _ Hrest) as (lines & Hall & ->).
    exists (line :: lines). split; [by constructor|].
    simpl. by rewrite str_app_assoc.
Qed.

(** On commands of the annotated type the loop never raises. *)
Lemma write_cmds_typed (block : BlockDef) (indentby written : string) :
  write_cmds (map py_of_cmddef block) indentby written
    = (Ok tt,
       written +:+ join (map (fun c => render (fst c) (snd c) indentby) block)).
Proof.
  revert written. induction block as [|c block IH]; intros written.
  - simpl. by rewrite str_app_nil_r.
  - cbn [map write_cmds join foldr].
    rewrite cmddef_to_str_typed, IH. by rewrite str_app_assoc.
Qed.

(** A path and a list of well-typed commands are written whenever the file
    can be opened, and no other file changes. *)
Lemma write_locust_typed (fs : filesystem) (p : string) (block : BlockDef)
    (indentby : string) :
  p ∉ refused fs ->
  write_locust fs (PyPath p) (py_of_block block) indentby
    = (Ok tt,
       {| files :=
            <[p := join (map (fun c => render (fst c) (snd c) indentby) block)]>
              (files fs);
          refused := refused fs |}).
Proof.
  intros Hp. unfold write_locust, py_of_block.
  rewrite decide_False by done. by rewrite write_cmds_typed.
Qed.

(** C1: when [write_locust(path, block, indentby)] ends without exception,
    the file at [path] holds exactly the lines that [cmddef_to_str] renders
    from the records of the block, concatenated in the order of the block,
    whatever the file held before. *)
Theorem write_locust_content (fs fs' : filesystem) (p : string)
    (block : BlockDef) (indentby : string) :
  write_locust fs (PyPath p) (py_of_block block) indentby = (Ok tt, fs') ->
  exists lines : list string,
    Forall2 (fun c line => cmddef_to_str (py_of_cmddef c) indentby = Ok line)
      block lines
    /\ files fs' !! p = Some (join lines).
Proof.
  unfold write_locust, py_of_block.
  destruct (decide (p ∈ refused fs)) as [|Hp]; [discriminate|].
  destruct (write_cmds _ _ _) as [r content] eqn:Hloop.
  intros [= -> <-].
  apply write_cmds_Ok in Hloop as (lines & Hall & ->).
  exists lines. split.
  - by apply Forall2_fmap_l in Hall.
  - simpl. by rewrite lookup_insert_eq.
Qed.

Definition fs_example : filesystem :=
  {| files := {[ "locustfile.py" := "old text" ]}; refused := {[ "/" ]} |}.

Definition fs_written : filesystem :=
  snd (write_locust fs_example (PyPath "locustfile.py")
         (py_of_block [(0, "class A:"); (1, "pass")]) "  ").

Lemma write_locust_content_witness :
  exists lines : list string,
    Forall2 (fun c line => cmddef_to_str (py_of_cmddef c) "  " = Ok line)
      [(0, "class A:"); (1, "pass")] lines
    /\ files fs_written !! "locustfile.py" = Some (join lines).
Proof.
  apply (write_locust_content fs_example fs_written "locustfile.py").
  vm_compute. reflexivity.
Defined.

(** C7: [write_locust] raises [TypeError] when [path] is not a [Path] and
    when [filedef] is not a sequence, and in both cases the storage is left
    as it was: nothing is opened, created or truncated. *)
Theorem write_locust_validates (fs : filesystem) (path filedef : pyval)
    (indentby : string) :
  is_path path = false \/ is_sequence filedef = false ->
  write_locust fs path filedef indentby = (Raise TypeError, fs).
Proof.
  intros [Hpath|Hseq].
  - destruct path; (reflexivity || discriminate).
  - destruct path; try reflexivity.
    destruct filedef; (reflexivity || discriminate).
Qed.

Lemma write_locust_validates_witness :
  write_locust fs_example (PyStr "locustfile.py")
      (py_of_block [(0, "pass")]) "    "
    = (Raise TypeError, fs_example)
  /\ write_locust fs_example (PyPath "locustfile.py") (PyInt 7) "    "
    = (Raise TypeError, fs_example).
Proof.
  split.
  - apply write_locust_validates. left. reflexivity.
  - apply write_locust_validates. right. reflexivity.
Defined.

(** * Further properties of the builders and of the emitter *)

(** ** Strings *)

Lemma str_length_app (s t : string) :
  String.length (s +:+ t) = (String.length s + String.length t)%nat.
Proof.
  induction s as [|a s IH]; [reflexivity|].
  rewrite str_app_cons. simpl. by rewrite IH.
Qed.

Lemma str_length_repeat (s : string) (n : nat) :
  String.length (str_repeat s n) = (n * String.length s)%nat.
Proof.
  induction n as [|n IH]; [reflexivity|].
  simpl. rewrite str_length_app, IH. lia.
Qed.

Lemma count_char_app (c : ascii) (s t : string) :
  count_char c (s +:+ t) = (count_char c s + count_char c t)%nat.
Proof.
  induction s as [|a s IH]; [reflexivity|].
  rewrite str_app_cons. simpl. rewrite IH. by destruct (Ascii.eqb a c).
Qed.

Lemma count_char_absent (c : ascii) (s : string) :
  has_char c s = false -> count_char c s = 0%nat.
Proof.
  induction s as [|a s IH]; [reflexivity|].
  simpl. destruct (Ascii.eqb a c); [discriminate|exact IH].
Qed.

Lemma count_char_repeat (c : ascii) (s : string) (n : nat) :
  count_char c (str_repeat s n) = (n * count_char c s)%nat.
Proof.
  induction n as [|n IH]; [reflexivity|].
  simpl. rewrite count_char_app, IH. lia.
Qed.

Lemma join_app (xs ys : list string) : join (xs ++ ys) = join xs +:+ join ys.
Proof.
  induction xs as [|x xs IH]; [reflexivity|].
  simpl. rewrite IH. by rewrite str_app_assoc.
Qed.

(** The text [write_locust] leaves in the file for a block of the annotated
    type. *)
Definition rendered (block : BlockDef) (indentby : string) : string :=
  join (map (fun c => render (fst c) (snd c) indentby) block).

(** ** Rendering a line *)


(** X2: a level that is zero or negative gives no indentation at all: the line
    is the text and the newline. *)
Theorem cmddef_to_str_nonpositive_level (level : Z) (text indentby : string) :
  level <= 0 ->
  cmddef_to_str (py_of_cmddef (level, text)) indentby = Ok (text +:+ nl).
Proof.
  intros Hlevel. rewrite cmddef_to_str_typed. unfold render, str_mul. simpl.
  by replace (Z.to_nat level) with 0%nat by lia.
Qed.

Lemma cmddef_to_str_nonpositive_level_witness :
  cmddef_to_str (py_of_cmddef (-2, "pass")) "    " = Ok ("pass" +:+ nl).
Proof. apply (cmddef_to_str_nonpositive_level (-2) "pass" "    "). lia. Defined.

(** X3: the length of a rendered line is [level] times the length of the
    indentation unit, plus the length of the text, plus one. *)
Theorem cmddef_to_str_length (level : Z) (text indentby : string) :
  0 <= level ->
  exists line : string,
    cmddef_to_str (py_of_cmddef (level, text)) indentby = Ok line
    /\ Z.of_nat (String.length line)
         = level * Z.of_nat (String.length indentby)
           + Z.of_nat (String.length text) + 1.
Proof.
  intros Hlevel. eexists. split; [apply cmddef_to_str_typed|].
  unfold render, str_mul. simpl.
  rewrite !str_length_app, str_length_repeat. simpl. lia.
Qed.

Lemma cmddef_to_str_length_witness :
  exists line : string,
    cmddef_to_str (py_of_cmddef (3, "pass")) "  " = Ok line
    /\ Z.of_nat (String.length line)
         = 3 * Z.of_nat (String.length "  ")
           + Z.of_nat (String.length "pass") + 1.
Proof. apply (cmddef_to_str_length 3 "pass" "  "). lia. Defined.

(** X4: a boolean is taken as a level, unlike in [setup_blank_line]: [True]
    indents once and [False] not at all. *)
Theorem cmddef_to_str_bool_level (b : bool) (text indentby : string) :
  cmddef_to_str (PyTuple [PyBool b; PyStr text]) indentby
    = Ok ((if b then indentby else EmptyString) +:+ text +:+ nl).
Proof.
  destruct b; [|reflexivity].
  unfold cmddef_to_str, render, str_mul. simpl. by rewrite str_app_nil_r.
Qed.

(** ** Blank lines *)

(** X5: zero and every negative integer give the empty block, without any
    exception. *)
Theorem setup_blank_line_nonpositive (n : Z) :
  n <= 0 -> setup_blank_line (PyInt n) = Ok [].
Proof.
  intros Hn. simpl. rewrite list_mul_singleton.
  by replace (Z.to_nat n) with 0%nat by lia.
Qed.

Lemma setup_blank_line_nonpositive_witness :
  setup_blank_line (PyInt (-5)) = Ok [].
Proof. apply (setup_blank_line_nonpositive (-5)). lia. Defined.

(** X6: the blank lines of [m + n] are those of [m] followed by those of [n],
    for counts that are not negative. *)
Theorem setup_blank_line_add (m n : Z) :
  0 <= m -> 0 <= n ->
  exists bm bn : BlockDef,
    setup_blank_line (PyInt m) = Ok bm
    /\ setup_blank_line (PyInt n) = Ok bn
    /\ setup_blank_line (PyInt (m + n)) = Ok (bm ++ bn).
Proof.
  intros Hm Hn. eexists _, _. split; [reflexivity|]. split; [reflexivity|].
  simpl. rewrite !list_mul_singleton, Z2Nat.inj_add by lia.
  by rewrite replicate_add.
Qed.

Lemma setup_blank_line_add_witness :
  exists bm bn : BlockDef,
    setup_blank_line (PyInt 2) = Ok bm
    /\ setup_blank_line (PyInt 1) = Ok bn
    /\ setup_blank_line (PyInt (2 + 1)) = Ok (bm ++ bn).
Proof. apply (setup_blank_line_add 2 1); lia. Defined.

(** ** Levels of the blocks *)

Lemma Forall_replicate_eq {A : Type} (P : A -> Prop) (x : A) (n : nat) :
  P x -> Forall P (replicate n x).
Proof. intros Hx. induction n; simpl; by constructor. Qed.

(** The header, the imports, the class line of a task set and the blank
    lines are all at level 0, whatever their arguments. *)
Lemma level_zero_builders (dist version url name : string) (n : Z) :
  Forall (fun c => fst c = 0) (setup_header dist version url)
  /\ Forall (fun c => fst c = 0) setup_import
  /\ Forall (fun c => fst c = 0) (setup_taskset name)
  /\ exists blank : BlockDef,
       setup_blank_line (PyInt n) = Ok blank
       /\ Forall (fun c => fst c = 0) blank.
Proof.
  split; [by repeat constructor|].
  split; [by repeat constructor|].
  split; [by repeat constructor|].
  eexists. split; [reflexivity|].
  rewrite list_mul_singleton. by apply Forall_replicate_eq.
Qed.

(** X7: the blocks of a task and of a user behaviour keep every level at zero or
    above when they start at a level that is not negative. *)
Theorem nested_builders_levels (name taskset : string) (weight : Z)
    (reqs : list pyval) (indlevel : Z) :
  0 <= indlevel ->
  exists task locust : BlockDef,
    setup_task name weight (PyList reqs) indlevel = Ok task
    /\ setup_locust name taskset weight indlevel = Ok locust
    /\ Forall (fun c => indlevel <= fst c <= indlevel + 1) task
    /\ Forall (fun c => 0 <= fst c <= indlevel + 2) locust.
Proof.
  intros Hlevel. eexists _, _.
  split; [apply setup_task_list|]. split; [apply setup_locust_block|].
  split.
  - do 2 (constructor; [simpl; lia|]).
    induction reqs as [|req reqs IH]; simpl; constructor; [simpl; lia|].
    exact IH.
  - repeat (constructor; [simpl; lia|]). constructor.
Qed.

Lemma nested_builders_levels_witness :
  exists task locust : BlockDef,
    setup_task "t1" 2 (PyList [PyStr "/a"; PyInt 7]) 1 = Ok task
    /\ setup_locust "t1" "MyTaskSet" 2 1 = Ok locust
    /\ Forall (fun c => 1 <= fst c <= 1 + 1) task
    /\ Forall (fun c => 0 <= fst c <= 1 + 2) locust.
Proof.
  apply (nested_builders_levels "t1" "MyTaskSet" 2 [PyStr "/a"; PyInt 7] 1).
  lia.
Defined.

(** ** Tasks *)

(** X8: the items of the list are not checked: a list of any values gives
    [2 + len(uri)] lines, and the GET line of each item holds its [str()]
    between the double quotes, in the order of the list. *)
Theorem setup_task_any_items (name : string) (weight : Z) (reqs : list pyval)
    (indlevel : Z) :
  exists block : BlockDef,
    setup_task name weight (PyList reqs) indlevel = Ok block
    /\ length block = (2 + length reqs)%nat
    /\ drop 2 block
         = map (fun req => (indlevel + 1, get_line (py_str req))) reqs
    /\ get_line (py_str (PyInt (-3))) = get_line "-3"
    /\ get_line (py_str PyNone) = get_line "None".
Proof.
  eexists. split; [apply setup_task_list|].
  split; [simpl; by rewrite length_map|].
  split; [reflexivity|]. by split.
Qed.

(** X9: the text of a URI is inserted as it is, also when it holds a double
    quote: the GET line is 19 characters longer than the URI, and has two
    more double quotes than the URI. *)
Theorem setup_task_no_escape (name : string) (weight : Z) (u : string)
    (indlevel : Z) :
  exists line : string,
    setup_task name weight (PyList [PyStr u]) indlevel
      = Ok [(indlevel, task_decorator weight); (indlevel, task_def name);
            (indlevel + 1, line)]
    /\ String.length line = (String.length u + 19)%nat
    /\ count_char "034" line = (count_char "034" u + 2)%nat.
Proof.
  exists (task_get (PyStr u)).
  split; [by rewrite setup_task_list|]. unfold task_get. simpl.
  split.
  - rewrite !str_length_app. simpl. lia.
  - rewrite !count_char_app. simpl. lia.
Qed.

(** ** Writing the file *)

(** The loop over well-typed commands followed by other commands writes the
    lines of the former and goes on with the latter. *)
Lemma write_cmds_typed_app (block : BlockDef) (more : list pyval)
    (indentby written : string) :
  write_cmds (map py_of_cmddef block ++ more) indentby written
    = write_cmds more indentby (written +:+ rendered block indentby).
Proof.
  revert written. induction block as [|c block IH]; intros written.
  - simpl. by rewrite str_app_nil_r.
  - cbn [map app write_cmds]. rewrite cmddef_to_str_typed, IH.
    unfold rendered. simpl. by rewrite str_app_assoc.
Qed.

Lemma rendered_level_zero (block : BlockDef) (ind1 ind2 : string) :
  Forall (fun c => fst c <= 0) block ->
  rendered block ind1 = rendered block ind2.
Proof.
  unfold rendered. induction 1 as [|[level text] block Hlevel _ IH]; simpl.
  - reflexivity.
  - rewrite IH. unfold render, str_mul. simpl in Hlevel.
    by replace (Z.to_nat level) with 0%nat by lia.
Qed.

Lemma count_nl_rendered (block : BlockDef) (indentby : string) :
  Forall (fun c => has_char "010" (snd c) = false) block ->
  has_char "010" indentby = false ->
  count_char "010" (rendered block indentby) = length block.
Proof.
  intros Hblock Hind. unfold rendered.
  induction Hblock as [|[level text] block Htext _ IH]; [reflexivity|].
  simpl in *. rewrite count_char_app, IH. unfold render, str_mul.
  rewrite !count_char_app, count_char_repeat.
  rewrite (count_char_absent _ _ Hind), (count_char_absent _ _ Htext).
  simpl. lia.
Qed.

(** X10: a command that cannot be rendered stops the writing with its exception,
    after the file was truncated: the file is left with the lines of the
    commands before it, and nothing of the commands after it. *)
Theorem write_locust_partial (fs : filesystem) (p : string) (block : BlockDef)
    (bad : pyval) (rest : list pyval) (indentby : string) (e : exn) :
  p ∉ refused fs ->
  cmddef_to_str bad indentby = Raise e ->
  write_locust fs (PyPath p) (PyList (map py_of_cmddef block ++ bad :: rest))
      indentby
    = (Raise e,
       {| files := <[p := rendered block indentby]> (files fs);
          refused := refused fs |}).
Proof.
  intros Hp Hbad. unfold write_locust.
  rewrite decide_False by done.
  rewrite write_cmds_typed_app. simpl. by rewrite Hbad.
Qed.

Lemma write_locust_partial_witness :
  write_locust fs_example (PyPath "locustfile.py")
      (PyList (map py_of_cmddef [(0, "class A:")]
               ++ PyInt 3 :: [py_of_cmddef (1, "pass")])) "  "
    = (Raise TypeError,
       {| files := <[ "locustfile.py" := rendered [(0, "class A:")] "  " ]>
                     (files fs_example);
          refused := refused fs_example |}).
Proof.
  apply (write_locust_partial fs_example "locustfile.py" [(0, "class A:")]
           (PyInt 3) [py_of_cmddef (1, "pass")] "  " TypeError).
  - simpl. set_solver.
  - reflexivity.
Defined.

(** X11: whatever the arguments and the outcome, no file other than the one at
    [path] changes, and the set of paths that cannot be opened stays. *)
Theorem write_locust_frame (fs : filesystem) (path filedef : pyval)
    (indentby q : string) :
  path <> PyPath q ->
  files (snd (write_locust fs path filedef indentby)) !! q = files fs !! q
  /\ refused (snd (write_locust fs path filedef indentby)) = refused fs.
Proof.
  intros Hq. unfold write_locust.
  destruct path as [| | | | | |p]; try done.
  destruct filedef as [| | | | |cmds|]; try done.
  destruct (decide (p ∈ refused fs)); [done|].
  destruct (write_cmds cmds indentby EmptyString) as [r content]. simpl.
  split; [|done]. apply lookup_insert_ne. congruence.
Qed.

Lemma write_locust_frame_witness :
  files (snd (write_locust fs_example (PyPath "other.py")
                (py_of_block [(0, "pass")]) "  ")) !! "locustfile.py"
    = files fs_example !! "locustfile.py"
  /\ refused (snd (write_locust fs_example (PyPath "other.py")
                     (py_of_block [(0, "pass")]) "  "))
     = refused fs_example.
Proof.
  apply (write_locust_frame fs_example (PyPath "other.py")
           (py_of_block [(0, "pass")]) "  " "locustfile.py").
  discriminate.
Defined.

(** X12: a second call on the same path replaces what the first one wrote: its
    outcome and the storage after it are those of the second call alone. *)
Theorem write_locust_overwrites (fs : filesystem) (path first second : pyval)
    (ind1 ind2 : string) :
  is_list second = true ->
  write_locust (snd (write_locust fs path first ind1)) path second ind2
    = write_locust fs path second ind2.
Proof.
  intros Hsecond. destruct second as [| | | | |cmds2|]; try discriminate.
  destruct path as [| | | | | |p]; try reflexivity.
  destruct first as [| | | | |cmds1|]; try reflexivity.
  unfold write_locust.
  destruct (decide (p ∈ refused fs)) as [Hp|Hp]; simpl.
  - by rewrite decide_True.
  - destruct (write_cmds cmds1 ind1 EmptyString) as [r1 c1]. simpl.
    rewrite decide_False by done.
    destruct (write_cmds cmds2 ind2 EmptyString) as [r2 c2].
    by rewrite insert_insert_eq.
Qed.

Lemma write_locust_overwrites_witness :
  write_locust
      (snd (write_locust fs_example (PyPath "locustfile.py")
              (py_of_block [(0, "class A:"); (1, "pass")]) "  "))
      (PyPath "locustfile.py") (py_of_block [(0, "pass")]) "    "
    = write_locust fs_example (PyPath "locustfile.py")
        (py_of_block [(0, "pass")]) "    ".
Proof.
  apply (write_locust_overwrites fs_example (PyPath "locustfile.py")
           (py_of_block [(0, "class A:"); (1, "pass")])
           (py_of_block [(0, "pass")]) "  " "    ").
  reflexivity.
Defined.

(** X13: writing the concatenation of two blocks gives the text of the first
    followed by the text of the second. *)
Theorem write_locust_app (fs : filesystem) (p : string) (b1 b2 : BlockDef)
    (indentby : string) :
  p ∉ refused fs ->
  exists c1 c2 : string,
    files (snd (write_locust fs (PyPath p) (py_of_block b1) indentby)) !! p
      = Some c1
    /\ files (snd (write_locust fs (PyPath p) (py_of_block b2) indentby)) !! p
      = Some c2
    /\ write_locust fs (PyPath p) (py_of_block (b1 ++ b2)) indentby
      = (Ok tt, {| files := <[p := c1 +:+ c2]> (files fs);
                   refused := refused fs |}).
Proof.
  intros Hp. exists (rendered b1 indentby), (rendered b2 indentby).
  rewrite !write_locust_typed by done. simpl.
  rewrite !lookup_insert_eq. do 2 (split; [reflexivity|]).
  do 3 f_equal. by rewrite map_app, join_app.
Qed.

Lemma write_locust_app_witness :
  exists c1 c2 : string,
    files (snd (write_locust fs_example (PyPath "locustfile.py")
                  (py_of_block [(0, "class A:")]) "  ")) !! "locustfile.py"
      = Some c1
    /\ files (snd (write_locust fs_example (PyPath "locustfile.py")
                     (py_of_block [(1, "pass")]) "  ")) !! "locustfile.py"
      = Some c2
    /\ write_locust fs_example (PyPath "locustfile.py")
         (py_of_block ([(0, "class A:")] ++ [(1, "pass")])) "  "
      = (Ok tt, {| files := <[ "locustfile.py" := c1 +:+ c2 ]>
                              (files fs_example);
                   refused := refused fs_example |}).
Proof.
  apply (write_locust_app fs_example "locustfile.py" [(0, "class A:")]
           [(1, "pass")] "  ").
  simpl. set_solver.
Defined.

Lemma write_cmds_level_zero (block : BlockDef) (ind1 ind2 written : string) :
  Forall (fun c => fst c <= 0) block ->
  write_cmds (map py_of_cmddef block) ind1 written
    = write_cmds (map py_of_cmddef block) ind2 written.
Proof.
  intros Hblock. rewrite !write_cmds_typed.
  pose proof (rendered_level_zero block ind1 ind2 Hblock) as Hsame.
  unfold rendered in Hsame. by rewrite Hsame.
Qed.

(** X14: a block that has no level above zero is written the same with every
    indentation unit. *)
Theorem write_locust_indent_free (fs : filesystem) (p : string)
    (block : BlockDef) (ind1 ind2 : string) :
  Forall (fun c => fst c <= 0) block ->
  write_locust fs (PyPath p) (py_of_block block) ind1
    = write_locust fs (PyPath p) (py_of_block block) ind2.
Proof.
  intros Hblock. unfold write_locust, py_of_block.
  destruct (decide (p ∈ refused fs)); [reflexivity|].
  by rewrite (write_cmds_level_zero block ind1 ind2 _ Hblock).
Qed.

Lemma write_locust_indent_free_witness :
  write_locust fs_example (PyPath "locustfile.py")
      (py_of_block (setup_import ++ setup_taskset "MyTaskSet")) "  "
    = write_locust fs_example (PyPath "locustfile.py")
        (py_of_block (setup_import ++ setup_taskset "MyTaskSet")) "        ".
Proof.
  apply (write_locust_indent_free fs_example "locustfile.py"
           (setup_import ++ setup_taskset "MyTaskSet") "  " "        ").
  repeat constructor; simpl; lia.
Defined.

(** X15: when neither the texts of the block nor the indentation unit hold a
    newline, the file has as many newlines as the block has records: one
    line for each record. *)
Theorem write_locust_line_count (fs : filesystem) (p : string)
    (block : BlockDef) (indentby : string) :
  p ∉ refused fs ->
  Forall (fun c => has_char "010" (snd c) = false) block ->
  has_char "010" indentby = false ->
  exists content : string,
    write_locust fs (PyPath p) (py_of_block block) indentby
      = (Ok tt, {| files := <[p := content]> (files fs);
                   refused := refused fs |})
    /\ count_char "010" content = length block.
Proof.
  intros Hp Hblock Hind. exists (rendered block indentby).
  split; [by apply write_locust_typed|].
  by apply count_nl_rendered.
Qed.

Lemma write_locust_line_count_witness :
  exists content : string,
    write_locust fs_example (PyPath "locustfile.py")
        (py_of_block [(0, "class A:"); (1, "pass")]) "  "
      = (Ok tt, {| files := <[ "locustfile.py" := content ]>
                              (files fs_example);
                   refused := refused fs_example |})
    /\ count_char "010" content = length [(0, "class A:"); (1, "pass")].
Proof.
  apply (write_locust_line_count fs_example "locustfile.py"
           [(0, "class A:"); (1, "pass")] "  ").
  - simpl. set_solver.
  - by repeat constructor.
  - reflexivity.
Defined.

(** X16: the blank lines of [setup_blank_line(n)] are written as [n] newlines
    and nothing else, whatever the indentation unit. *)
Theorem write_blank_lines (fs : filesystem) (p : string) (n : Z)
    (indentby : string) :
  p ∉ refused fs ->
  exists blank : BlockDef,
    setup_blank_line (PyInt n) = Ok blank
    /\ write_locust fs (PyPath p) (py_of_block blank) indentby
       = (Ok tt, {| files := <[p := str_repeat nl (Z.to_nat n)]> (files fs);
                    refused := refused fs |}).
Proof.
  intros Hp. eexists. split; [reflexivity|].
  rewrite write_locust_typed by done. do 3 f_equal.
  rewrite list_mul_singleton.
  induction (Z.to_nat n) as [|k IH]; [reflexivity|].
  simpl. by rewrite IH.
Qed.

Lemma write_blank_lines_witness :
  exists blank : BlockDef,
    setup_blank_line (PyInt 2) = Ok blank
    /\ write_locust fs_example (PyPath "locustfile.py") (py_of_block blank)
         "    "
       = (Ok tt, {| files := <[ "locustfile.py" := str_repeat nl (Z.to_nat 2) ]>
                               (files fs_example);
                    refused := refused fs_example |}).
Proof.
  apply (write_blank_lines fs_example "locustfile.py" 2 "    ").
  simpl. set_solver.
Defined.

(** ** The header *)



(** ** The top of a generated file *)

(** X18: the header, the imports, blank lines and the class line of a task set,
    put together in this order, are written the same with every indentation
    unit: none of their records is indented. *)
Theorem write_prologue_indent_free (fs : filesystem) (p : string)
    (dist version url name : string) (n : Z) (ind1 ind2 : string) :
  exists blank : BlockDef,
    setup_blank_line (PyInt n) = Ok blank
    /\ write_locust fs (PyPath p)
         (py_of_block (setup_header dist version url ++ setup_import
                       ++ blank ++ setup_taskset name)) ind1
       = write_locust fs (PyPath p)
           (py_of_block (setup_header dist version url ++ setup_import
                         ++ blank ++ setup_taskset name)) ind2.
Proof.
  destruct (level_zero_builders dist version url name n)
    as (Hheader & Himport & Htaskset & blank & Hblank & Hlevels).
  exists blank. split; [exact Hblank|].
  unfold write_locust, py_of_block.
  destruct (decide (p ∈ refused fs)); [reflexivity|].
  rewrite (write_cmds_level_zero _ ind1 ind2); [reflexivity|].
  assert (Hle : forall block : BlockDef,
             Forall (fun c => fst c = 0) block ->
             Forall (fun c => fst c <= 0) block).
  { intros block Hzero. eapply Forall_impl; [exact Hzero|].
    intros c Hc. simpl in *. lia. }
  apply Forall_app; split; [by apply Hle|].
  apply Forall_app; split; [by apply Hle|].
  apply Forall_app; split; by apply Hle.
Qed.
